(** * cmanta: the pybind11 binding of the Vimba system singleton

    Verification model of
    [python/basecam/examples/mantaCam/mantacam/cmanta.cpp].

    The binding is four lines of registration code:
<<
    PYBIND11_MODULE(cmanta, module) {
        py::class_<VimbaSystem, std::unique_ptr<VimbaSystem, py::nodelete>>(module, "VimbaSystem")
            .def("GetInstance", &VimbaSystem::GetInstance)
            .def("GetCameras", &VimbaSystem::GetCameras);
    }
>>
    Its behaviour is the behaviour of the pybind11 operations it calls
    ([class_], [def], the [nodelete] holder) applied to two functions of
    the vendor SDK.  The file therefore has three layers:

    - [VimbaSDK]: the vendor SDK, kept abstract.  Its header is not part of
      the repository, so the declarations the binding depends on (static or
      member, parameter and return types, copyability) and the behaviour of
      the two functions are parameters of the development.
    - the pybind11 operations used by the source, with their documented
      semantics: type registration, method registration, the call
      dispatcher, return value policies, instance deallocation.
    - [pybind11_init_cmanta]: the body of [PYBIND11_MODULE(cmanta, module)],
      transcribed statement by statement. *)

From stdpp Require Import gmap strings list.
From Stdlib Require Import ZArith.

Open Scope string_scope.
Open Scope list_scope.

(** ** C++ side: types, values and the vendor SDK *)

(** Types that can occur in the signature of a bound function, by the way
    pybind11 converts them.  [cmanta.cpp] includes [pybind11/pybind11.h]
    only (no [stl.h]), so containers, like classes and enums, are converted
    by the generic caster and need a registered type. *)
Inductive cpp_type :=
| TVoid
| TArith                   (* bool, integer and floating types: built-in casters *)
| TUser (name : string).   (* class, enum or container: generic caster *)

(** How a function hands back its result. *)
Inductive passing := ByValue | ByRef | ByPtr.

#[global] Instance passing_eq_dec : EqDecision passing.
Proof. solve_decision. Defined.

(** C++ values crossing the binding.  A value of a user type is identified
    by its address; address 0 is the null pointer. *)
Inductive cpp_val :=
| CVoid
| CArith (z : Z)
| CUser (ty : string) (addr : N).

Inductive cpp_result (Exn : Type) :=
| Return (v : cpp_val)
| Throw (e : Exn).
Arguments Return {Exn} v.
Arguments Throw {Exn} e.

(** A C++ function as [&VimbaSystem::f] denotes it.  [fn_member] tells a
    pointer to a non-static member function (called on an implicit [this])
    from a pointer to a static member function.  [fn_body] receives the
    converted arguments, [this] first for a member function, and the device
    environment. *)
Record cpp_function (Env Exn : Type) := {
  fn_member : bool;
  fn_params : list (cpp_type * passing);
  fn_ret : cpp_type;
  fn_pass : passing;
  fn_body : list cpp_val → Env → cpp_result Exn * Env
}.
Arguments fn_member {Env Exn} _.
Arguments fn_params {Env Exn} _.
Arguments fn_ret {Env Exn} _.
Arguments fn_pass {Env Exn} _.
Arguments fn_body {Env Exn} _ _ _.

(** The C++ name of the class the binding registers. *)
Definition VimbaSystem : string := "VimbaSystem".

(** The vendor SDK as far as the binding touches it
    ([#include <VimbaCPP/Include/VimbaCPP.h>], [using namespace AVT::VmbAPI]).
    [Env] is the device environment together with the SDK's internal state,
    [Exn] the exceptions SDK code can throw.  The copy and move constructors
    of [VimbaSystem] are [None] when the class has none that is accessible;
    they return the address of the new object. *)
Record VimbaSDK := {
  Env : Type;
  Exn : Type;
  VimbaSystem_GetInstance : cpp_function Env Exn;
  VimbaSystem_GetCameras : cpp_function Env Exn;
  VimbaSystem_copy : option (N → Env → N * Env);
  VimbaSystem_move : option (N → Env → N * Env)
}.

(** ** Python side *)

(** Python objects the calling environment can pass or receive.  [PyInst id]
    is a reference to the pybind11 instance [id]. *)
Inductive py_obj :=
| PyNone
| PyInt (z : Z)
| PyInst (id : N).

(** Errors a caller can observe.  All but [SdkError] are raised by pybind11
    or the interpreter; [SdkError e] is the exception [e] thrown by SDK code,
    as pybind11's exception translation hands it to Python. *)
Inductive py_error (Exn : Type) :=
| TypeError_arguments        (* "incompatible function arguments" *)
| TypeError_return           (* "Unable to convert function return value to a Python type!" *)
| TypeError_no_constructor   (* "<type>: No constructor defined!" *)
| RuntimeError_noncopyable   (* "return_value_policy = copy, but type is non-copyable!",
                                and the like for move *)
| AttributeError (name : string)
| NameError                  (* the caller names an object it does not hold *)
| SdkError (e : Exn).
Arguments TypeError_arguments {Exn}.
Arguments TypeError_return {Exn}.
Arguments TypeError_no_constructor {Exn}.
Arguments RuntimeError_noncopyable {Exn}.
Arguments AttributeError {Exn} name.
Arguments NameError {Exn}.
Arguments SdkError {Exn} e.

Inductive outcome (Exn : Type) :=
| Returned (o : py_obj)
| Raised (err : py_error Exn).
Arguments Returned {Exn} o.
Arguments Raised {Exn} err.

(** ** pybind11: what a module registers *)

(** Holder types.  [unique_ptr default_delete] is pybind11's default holder
    [std::unique_ptr<T>]; [unique_ptr nodelete] is
    [std::unique_ptr<T, py::nodelete>]. *)
Inductive deleter := default_delete | nodelete.
Inductive holder_type := unique_ptr (d : deleter).

Inductive return_value_policy :=
| automatic | take_ownership | copy | move | reference.

(** pybind11's [function_record]: one overload of a bound function. *)
Record function_record (V : VimbaSDK) := {
  fr_name : string;
  fr_is_method : bool;
  fr_policy : return_value_policy;
  fr_impl : cpp_function (Env V) (Exn V)
}.
Arguments fr_name {V} _.
Arguments fr_is_method {V} _.
Arguments fr_policy {V} _.
Arguments fr_impl {V} _.

(** A Python type object created by [class_]: its attributes are chains of
    overloads. *)
Record py_type (V : VimbaSDK) := {
  tp_name : string;
  tp_cpp : string;
  tp_dict : gmap string (list (function_record V))
}.
Arguments tp_name {V} _.
Arguments tp_cpp {V} _.
Arguments tp_dict {V} _.

(** pybind11's [type_info], the entry of [registered_types_cpp]. *)
Record type_info := {
  ti_type : string;                       (* name of the Python type object *)
  ti_holder : holder_type;
  ti_implicit_conversions : list string   (* source types of implicit casts *)
}.

(** The module object together with pybind11's type registry. *)
Record module_ (V : VimbaSDK) := {
  m_name : string;
  m_dict : gmap string (py_type V);
  registered_types_cpp : gmap string type_info
}.
Arguments m_name {V} _.
Arguments m_dict {V} _.
Arguments registered_types_cpp {V} _.

(** A [py::class_] value is a handle on a type object that lives in the
    dictionary of its scope: [def] through the handle changes the object the
    module refers to. *)
Record class_handle (V : VimbaSDK) := {
  cl_scope : module_ V;
  cl_key : string
}.
Arguments cl_scope {V} _.
Arguments cl_key {V} _.

Section Registration.
Context {V : VimbaSDK}.

(** [py::class_<T, Holder>(scope, name)]: fails when [T] is already
    registered or [scope] already has an attribute [name]; otherwise
    creates an empty type object, stores it in [scope] and registers [T]. *)
Definition class_ (cpp : string) (holder : holder_type)
    (scope : module_ V) (name : string) : option (class_handle V) :=
  match registered_types_cpp scope !! cpp, m_dict scope !! name with
  | None, None =>
      Some {| cl_scope :=
                {| m_name := m_name scope;
                   m_dict := <[name := {| tp_name := name; tp_cpp := cpp;
                                          tp_dict := ∅ |}]> (m_dict scope);
                   registered_types_cpp :=
                     <[cpp := {| ti_type := name; ti_holder := holder;
                                 ti_implicit_conversions := [] |}]>
                       (registered_types_cpp scope) |};
              cl_key := name |}
  | _, _ => None
  end.

(** [cpp_function(f, name(n), is_method(cls), sibling(...))] as
    [class_::def] builds it, with no extra attributes: the record keeps
    the function pointer itself and the default policy. *)
Definition cpp_function_of (name : string)
    (f : cpp_function (Env V) (Exn V)) : function_record V :=
  {| fr_name := name; fr_is_method := true; fr_policy := automatic;
     fr_impl := f |}.

Definition add_overload (r : function_record V) (t : py_type V) : py_type V :=
  {| tp_name := tp_name t; tp_cpp := tp_cpp t;
     tp_dict := <[fr_name r := default [] (tp_dict t !! fr_name r) ++ [r]]>
                  (tp_dict t) |}.

(** [cls.def(name, f)]: appends [f] to the overload chain [name] of the
    type object and returns the handle for chaining. *)
Definition def (name : string) (f : cpp_function (Env V) (Exn V))
    (c : class_handle V) : class_handle V :=
  {| cl_scope :=
       {| m_name := m_name (cl_scope c);
          m_dict := alter (add_overload (cpp_function_of name f)) (cl_key c)
                          (m_dict (cl_scope c));
          registered_types_cpp := registered_types_cpp (cl_scope c) |};
     cl_key := cl_key c |}.

(** *** The source *)

(** The body of [PYBIND11_MODULE(cmanta, module)], lines 23-27. *)
Definition pybind11_init_cmanta (module : module_ V) : option (module_ V) :=
  c ← class_ VimbaSystem (unique_ptr nodelete) module "VimbaSystem";
  let c := def "GetInstance" (VimbaSystem_GetInstance V) c in
  let c := def "GetCameras" (VimbaSystem_GetCameras V) c in
  Some (cl_scope c).

(** [PYBIND11_MODULE(name, m)]: on import, a fresh module object [name] is
    created and handed to the body. *)
Definition PYBIND11_MODULE (name : string)
    (body : module_ V → option (module_ V)) : option (module_ V) :=
  body {| m_name := name; m_dict := ∅; registered_types_cpp := ∅ |}.

Definition import_cmanta : option (module_ V) :=
  PYBIND11_MODULE "cmanta" pybind11_init_cmanta.

(** The module object the import yields, written out. *)
Definition VimbaSystem_type : py_type V :=
  {| tp_name := "VimbaSystem"; tp_cpp := VimbaSystem;
     tp_dict :=
       <["GetCameras" := [cpp_function_of "GetCameras" (VimbaSystem_GetCameras V)]]>
         (<["GetInstance" := [cpp_function_of "GetInstance" (VimbaSystem_GetInstance V)]]> ∅) |}.

Definition VimbaSystem_info : type_info :=
  {| ti_type := "VimbaSystem"; ti_holder := unique_ptr nodelete;
     ti_implicit_conversions := [] |}.

Definition cmanta : module_ V :=
  {| m_name := "cmanta";
     m_dict := {["VimbaSystem" := VimbaSystem_type]};
     registered_types_cpp := {[VimbaSystem := VimbaSystem_info]} |}.

End Registration.

(** ** pybind11: instances and the observable world *)

(** A pybind11 instance: the Python object wrapping one C++ value.
    [i_type] is the C++ type of the value, [i_owned] and
    [i_holder_constructed] are the flags of the same names. *)
Record instance := {
  i_type : string;
  i_ptr : N;
  i_owned : bool;
  i_holder_constructed : bool;
  i_refcnt : nat
}.

(** What pybind11 does to a C++ object when an instance dies: run the
    holder's deleter on it (destructor and deallocation), or release its
    memory with [operator delete] when no holder was constructed. *)
Inductive dealloc_event :=
| Destroyed (ty : string) (addr : N)
| Freed (ty : string) (addr : N).

(** Everything a sequence of calls can observe or change: the vendor SDK
    with its devices, the imported module, the live instances (pybind11's
    [registered_instances], newest first) and the record of the C++ objects
    pybind11 destroyed or freed. *)
Record world (V : VimbaSDK) := {
  sdk : Env V;
  py_module : module_ V;
  instances : list (N * instance);
  next_id : N;
  dealloc_log : list dealloc_event
}.
Arguments sdk {V} _.
Arguments py_module {V} _.
Arguments instances {V} _.
Arguments next_id {V} _.
Arguments dealloc_log {V} _.

Fixpoint lookup_instance (id : N) (l : list (N * instance)) : option instance :=
  match l with
  | [] => None
  | (k, i) :: r => if (k =? id)%N then Some i else lookup_instance id r
  end.

Fixpoint update_instance (id : N) (f : instance → instance)
    (l : list (N * instance)) : list (N * instance) :=
  match l with
  | [] => []
  | (k, i) :: r =>
      if (k =? id)%N then (k, f i) :: r else (k, i) :: update_instance id f r
  end.

Fixpoint remove_instance (id : N) (l : list (N * instance)) : list (N * instance) :=
  match l with
  | [] => []
  | (k, i) :: r => if (k =? id)%N then r else (k, i) :: remove_instance id r
  end.

(** The instance already registered for the object at [a] with type [ty]. *)
Fixpoint find_registered_instance (ty : string) (a : N)
    (l : list (N * instance)) : option N :=
  match l with
  | [] => None
  | (k, i) :: r =>
      if (i_ptr i =? a)%N && bool_decide (i_type i = ty) then Some k
      else find_registered_instance ty a r
  end.

Definition set_refcnt (n : nat) (i : instance) : instance :=
  {| i_type := i_type i; i_ptr := i_ptr i; i_owned := i_owned i;
     i_holder_constructed := i_holder_constructed i; i_refcnt := n |}.

(** The deleter of the holder, run by the holder's destructor on a non-null
    pointer: [std::default_delete] destroys the object, [py::nodelete] has
    an empty body. *)
Definition holder_destructor (h : holder_type) (ty : string) (a : N)
    (log : list dealloc_event) : list dealloc_event :=
  match h with
  | unique_ptr default_delete => if (a =? 0)%N then log else Destroyed ty a :: log
  | unique_ptr nodelete => log
  end.

Section Runtime.
Context {V : VimbaSDK}.

Definition with_sdk (e : Env V) (w : world V) : world V :=
  {| sdk := e; py_module := py_module w; instances := instances w;
     next_id := next_id w; dealloc_log := dealloc_log w |}.

Definition with_instances (l : list (N * instance)) (w : world V) : world V :=
  {| sdk := sdk w; py_module := py_module w; instances := l;
     next_id := next_id w; dealloc_log := dealloc_log w |}.

(** *** Argument conversion (type casters, [load]) *)

(** A Python object converts to a user type only if that type is
    registered and the object is an instance of it; [None] converts to a
    null pointer for pointer parameters. *)
Definition load (w : world V) (t : cpp_type * passing) (o : py_obj)
    : option cpp_val :=
  match t.1, o with
  | TArith, PyInt z => Some (CArith z)
  | TUser ty, PyInst id =>
      _ ← registered_types_cpp (py_module w) !! ty;
      i ← lookup_instance id (instances w);
      if bool_decide (i_type i = ty) then Some (CUser ty (i_ptr i)) else None
  | TUser ty, PyNone =>
      _ ← registered_types_cpp (py_module w) !! ty;
      match t.2 with ByPtr => Some (CUser ty 0) | _ => None end
  | _, _ => None
  end.

Fixpoint load_args (w : world V) (ts : list (cpp_type * passing))
    (args : list py_obj) : option (list cpp_val) :=
  match ts, args with
  | [], [] => Some []
  | t :: ts, a :: args =>
      v ← load w t a; vs ← load_args w ts args; Some (v :: vs)
  | _, _ => None
  end.

(** The C++ parameters a Python call has to supply: [def] adapts a member
    function pointer to a function taking the receiver, a [VimbaSystem *],
    first.  The source names no argument, so nothing forbids [None] for
    it: it loads as a null receiver. *)
Definition arg_types (f : cpp_function (Env V) (Exn V))
    : list (cpp_type * passing) :=
  (if fn_member f then [(TUser VimbaSystem, ByPtr)] else []) ++ fn_params f.

(** *** Result conversion (type casters, [cast]) *)

(** The policy in force: a result returned by value is moved; [automatic]
    means [copy] for an lvalue reference and [take_ownership] for a
    pointer. *)
Definition resolve_policy (p : return_value_policy) (k : passing)
    : return_value_policy :=
  match k with
  | ByValue => move
  | ByRef => match p with automatic => copy | _ => p end
  | ByPtr => match p with automatic => take_ownership | _ => p end
  end.

(** A new instance around the object at [a]; the [unique_ptr] holder is
    constructed exactly when the instance owns the object. *)
Definition new_instance (ty : string) (a : N) (owned : bool) (w : world V)
    : outcome (Exn V) * world V :=
  (Returned (PyInst (next_id w)),
   {| sdk := sdk w; py_module := py_module w;
      instances :=
        (next_id w, {| i_type := ty; i_ptr := a; i_owned := owned;
                       i_holder_constructed := owned; i_refcnt := 1 |})
        :: instances w;
      next_id := N.succ (next_id w);
      dealloc_log := dealloc_log w |}).

Definition construct_from (ctor : option (N → Env V → N * Env V))
    (ty : string) (a : N) (w : world V) : option (outcome (Exn V) * world V) :=
  c ← ctor;
  Some (new_instance ty (c a (sdk w)).1 true (with_sdk (c a (sdk w)).2 w)).

(** The generic caster on a result of user type [ty]. *)
Definition cast_user (p : return_value_policy) (k : passing) (ty : string)
    (a : N) (w : world V) : outcome (Exn V) * world V :=
  match registered_types_cpp (py_module w) !! ty with
  | None => (Raised TypeError_return, w)
  | Some _ =>
      if bool_decide (k = ByPtr) && (a =? 0)%N then (Returned PyNone, w)
      else match find_registered_instance ty a (instances w) with
      | Some id =>
          (Returned (PyInst id),
           with_instances
             (update_instance id (λ i, set_refcnt (S (i_refcnt i)) i)
                              (instances w)) w)
      | None =>
          match resolve_policy p k with
          | take_ownership | automatic => new_instance ty a true w
          | reference => new_instance ty a false w
          | copy =>
              default (Raised RuntimeError_noncopyable, w)
                      (construct_from (VimbaSystem_copy V) ty a w)
          | move =>
              default (default (Raised RuntimeError_noncopyable, w)
                               (construct_from (VimbaSystem_copy V) ty a w))
                      (construct_from (VimbaSystem_move V) ty a w)
          end
      end
  end.

Definition cast_out (p : return_value_policy) (k : passing) (t : cpp_type)
    (v : cpp_val) (w : world V) : outcome (Exn V) * world V :=
  match t, v with
  | TVoid, _ => (Returned PyNone, w)
  | TArith, CArith z => (Returned (PyInt z), w)
  | TUser ty, CUser _ a => cast_user p k ty a w
  | _, _ => (Raised TypeError_return, w)
  end.

(** *** The call dispatcher *)

(** Run the C++ function of an overload on converted arguments and
    convert what it produces.  [SdkError e] marks the Python exception that
    pybind11's translators make of the C++ exception [e]; which Python
    exception that is (it depends on the C++ type of [e]) is not
    modelled. *)
Definition invoke (r : function_record V) (cargs : list cpp_val)
    (w : world V) : outcome (Exn V) * world V :=
  let res := fn_body (fr_impl r) cargs (sdk w) in
  match res.1 with
  | Throw e => (Raised (SdkError e), with_sdk res.2 w)
  | Return v =>
      cast_out (fr_policy r) (fn_pass (fr_impl r)) (fn_ret (fr_impl r)) v
               (with_sdk res.2 w)
  end.

(** [cpp_function::dispatcher]: the first overload whose parameter count
    matches and whose arguments all convert is called; if there is none,
    [TypeError] is raised and no C++ function runs. *)
Fixpoint dispatcher (chain : list (function_record V)) (args : list py_obj)
    (w : world V) : outcome (Exn V) * world V :=
  match chain with
  | [] => (Raised TypeError_arguments, w)
  | r :: rest =>
      if bool_decide (length args = length (arg_types (fr_impl r))) then
        match load_args w (arg_types (fr_impl r)) args with
        | Some cargs => invoke r cargs w
        | None => dispatcher rest args w
        end
      else dispatcher rest args w
  end.

(** *** Deallocation *)

(** [clear_instance] followed by [class_::dealloc]. *)
Definition clear_instance (m : module_ V) (i : instance)
    (log : list dealloc_event) : list dealloc_event :=
  if i_owned i || i_holder_constructed i then
    match registered_types_cpp m !! i_type i with
    | Some ti =>
        if i_holder_constructed i
        then holder_destructor (ti_holder ti) (i_type i) (i_ptr i) log
        else Freed (i_type i) (i_ptr i) :: log
    | None => log
    end
  else log.

(** The caller drops one reference; the last one deallocates. *)
Definition Py_DECREF (id : N) (i : instance) (w : world V) : world V :=
  match i_refcnt i with
  | S (S n) =>
      with_instances (update_instance id (set_refcnt (S n)) (instances w)) w
  | _ =>
      {| sdk := sdk w; py_module := py_module w;
         instances := remove_instance id (instances w);
         next_id := next_id w;
         dealloc_log := clear_instance (py_module w) i (dealloc_log w) |}
  end.

(** *** What the calling environment can do *)

Inductive op :=
| CallOnClass (cls attr : string) (args : list py_obj)    (* cmanta.cls.attr(args...) *)
| CallOnInstance (recv : N) (attr : string) (args : list py_obj)   (* obj.attr(args...) *)
| Construct (cls : string) (args : list py_obj)           (* cmanta.cls(args...) *)
| Release (id : N).                                       (* del obj *)

(** Python type of an instance. *)
Definition type_of (m : module_ V) (i : instance) : option (py_type V) :=
  ti ← registered_types_cpp m !! i_type i; m_dict m !! ti_type ti.

(** A function registered with [is_method] is an instance method: looked
    up through an instance it receives the instance as first argument,
    looked up through the class it receives the arguments as given.
    Attribute lookup covers the attributes the binding registers; those a
    Python class inherits from [object] are outside the model. *)
Definition binds_self (chain : list (function_record V)) : bool :=
  match chain with r :: _ => fr_is_method r | [] => false end.

Definition step (o : op) (w : world V) : outcome (Exn V) * world V :=
  match o with
  | CallOnClass cls attr args =>
      match m_dict (py_module w) !! cls with
      | None => (Raised (AttributeError cls), w)
      | Some t =>
          match tp_dict t !! attr with
          | None => (Raised (AttributeError attr), w)
          | Some chain => dispatcher chain args w
          end
      end
  | CallOnInstance recv attr args =>
      match lookup_instance recv (instances w) with
      | None => (Raised NameError, w)
      | Some i =>
          match type_of (py_module w) i with
          | None => (Raised NameError, w)
          | Some t =>
              match tp_dict t !! attr with
              | None => (Raised (AttributeError attr), w)
              | Some chain =>
                  dispatcher chain
                    (if binds_self chain then PyInst recv :: args else args) w
              end
          end
      end
  | Construct cls args =>
      match m_dict (py_module w) !! cls with
      | None => (Raised (AttributeError cls), w)
      | Some t =>
          (* a constructor registered with [py::init] would be found under
             [__init__]; without one the base type's [__init__] raises *)
          match tp_dict t !! "__init__" with
          | None => (Raised TypeError_no_constructor, w)
          | Some chain => dispatcher chain args w
          end
      end
  | Release id =>
      match lookup_instance id (instances w) with
      | None => (Raised NameError, w)
      | Some i => (Returned PyNone, Py_DECREF id i w)
      end
  end.

Fixpoint run (ops : list op) (w : world V) : world V :=
  match ops with
  | [] => w
  | o :: ops => run ops (step o w).2
  end.

(** The world right after [import cmanta] in device environment [e]. *)
Definition boot (e : Env V) : option (world V) :=
  m ← import_cmanta;
  Some {| sdk := e; py_module := m; instances := []; next_id := 1;
          dealloc_log := [] |}.

(** The same world, with the module object written out. *)
Definition loaded (e : Env V) : world V :=
  {| sdk := e; py_module := cmanta; instances := []; next_id := 1;
     dealloc_log := [] |}.

End Runtime.

(** ** Notions used to state the properties *)

Section Notions.
Context {V : VimbaSDK}.

(** A world in which [cmanta] has been imported. *)
Definition imported (w : world V) : Prop :=
  import_cmanta = Some (py_module w).

(** *** What an operation can change *)

(** The flags of an instance as [init_holder] leaves them: the holder
    exists exactly when the instance owns its object. *)
Definition holder_ok (ki : N * instance) : Prop :=
  i_holder_constructed ki.2 = i_owned ki.2.

(** One activation of SDK code that the bound functions can cause. *)
Inductive sdk_entry : Env V → Env V → Prop :=
| entry_GetInstance cargs e :
    sdk_entry e (fn_body (VimbaSystem_GetInstance V) cargs e).2
| entry_GetCameras cargs e :
    sdk_entry e (fn_body (VimbaSystem_GetCameras V) cargs e).2
| entry_copy c a e :
    VimbaSystem_copy V = Some c → sdk_entry e (c a e).2
| entry_move c a e :
    VimbaSystem_move V = Some c → sdk_entry e (c a e).2.

(** [w'] differs from [w] by SDK activity and by the set of live Python
    handles only. *)
Record frame (w w' : world V) : Prop := {
  frame_module : py_module w' = py_module w;
  frame_log : dealloc_log w' = dealloc_log w;
  frame_sdk : rtc sdk_entry (sdk w) (sdk w');
  frame_holders :
    Forall holder_ok (instances w) → Forall holder_ok (instances w')
}.

(** The SDK functions the module registered. *)
Definition forwards_sdk (r : function_record V) : Prop :=
  fr_impl r = VimbaSystem_GetInstance V ∨ fr_impl r = VimbaSystem_GetCameras V.

(** *** Forwarding *)

(** What the dispatcher does with a chain of the single overload [f]
    registered by [def] (lemma [dispatcher_single]): arguments that do not
    convert to the declared parameters are refused before any SDK code
    runs; otherwise [f] runs on them and its result goes through the
    result conversion. *)
Definition forward (f : cpp_function (Env V) (Exn V)) (args : list py_obj)
    (w : world V) : outcome (Exn V) * world V :=
  match load_args w (arg_types f) args with
  | None => (Raised TypeError_arguments, w)
  | Some cargs =>
      let res := fn_body f cargs (sdk w) in
      match res.1 with
      | Return v =>
          cast_out automatic (fn_pass f) (fn_ret f) v (with_sdk res.2 w)
      | Throw e => (Raised (SdkError e), with_sdk res.2 w)
      end
  end.

(** Attribute lookup on the class followed by the call. *)
Definition call_attr (a : string) (args : list py_obj) (w : world V)
    : outcome (Exn V) * world V :=
  if bool_decide (a = "GetInstance")
  then forward (VimbaSystem_GetInstance V) args w
  else if bool_decide (a = "GetCameras")
  then forward (VimbaSystem_GetCameras V) args w
  else (Raised (AttributeError a), w).

(** *** Handles *)

Definition is_GetInstance_call (o : op) : bool :=
  match o with
  | CallOnClass cls a _ =>
      bool_decide (cls = "VimbaSystem") && bool_decide (a = "GetInstance")
  | CallOnInstance _ a _ => bool_decide (a = "GetInstance")
  | _ => false
  end.

End Notions.

(** ** Two device environments to run the model on *)

(** The SDK with the declarations of the Vimba C++ API:
<<
    static VimbaSystem& GetInstance();
    VmbErrorType GetCameras( CameraPtrVector &cameras );
>>
    [VimbaSystem] is a singleton, neither copyable nor movable.  The
    environment lists the attached cameras; [GetCameras] reports success
    (0) once the API is started and [VmbErrorApiNotStarted] (1 here)
    before. *)
Module Vimba.
Record env := { started : bool; cameras : list N }.

Definition instance_addr : N := 4096.

Definition GetInstance : cpp_function env string :=
  {| fn_member := false; fn_params := [];
     fn_ret := TUser VimbaSystem; fn_pass := ByRef;
     fn_body := λ _ e, (Return (CUser VimbaSystem instance_addr), e) |}.

Definition GetCameras : cpp_function env string :=
  {| fn_member := true; fn_params := [(TUser "CameraPtrVector", ByRef)];
     fn_ret := TUser "VmbErrorType"; fn_pass := ByValue;
     fn_body := λ _ e,
       (Return (CUser "VmbErrorType" (if started e then 0%N else 1%N)), e) |}.

Definition api : VimbaSDK :=
  {| Env := env; Exn := string;
     VimbaSystem_GetInstance := GetInstance;
     VimbaSystem_GetCameras := GetCameras;
     VimbaSystem_copy := None; VimbaSystem_move := None |}.

Definition lab : env := {| started := true; cameras := [8192%N; 8448%N] |}.

Definition world0 : world api := loaded (V := api) lab.
End Vimba.

(** A test double whose results pybind11 can convert: the accessor returns
    a pointer, the enumeration takes no argument besides the receiver and
    returns the number of cameras, or throws when the transport layer is
    down. *)
Module Stub.
Record env := { transport_up : bool; cameras : list N }.

Definition instance_addr : N := 4096.

Definition GetInstance : cpp_function env string :=
  {| fn_member := false; fn_params := [];
     fn_ret := TUser VimbaSystem; fn_pass := ByPtr;
     fn_body := λ _ e, (Return (CUser VimbaSystem instance_addr), e) |}.

Definition GetCameras : cpp_function env string :=
  {| fn_member := true; fn_params := [];
     fn_ret := TArith; fn_pass := ByValue;
     fn_body := λ _ e,
       if transport_up e
       then (Return (CArith (Z.of_nat (length (cameras e)))), e)
       else (Throw "transport layer down", e) |}.

Definition api : VimbaSDK :=
  {| Env := env; Exn := string;
     VimbaSystem_GetInstance := GetInstance;
     VimbaSystem_GetCameras := GetCameras;
     VimbaSystem_copy := None; VimbaSystem_move := None |}.

Definition lab : env := {| transport_up := true; cameras := [8192%N; 8448%N] |}.
Definition unplugged : env := {| transport_up := false; cameras := [] |}.

Definition world0 (e : env) : world api := loaded (V := api) e.
End Stub.

(** The module as it would be with pybind11's default holder: run against
    it, the calls that are harmless with [nodelete] destroy the singleton. *)
Definition careless_init (module : module_ Stub.api) : option (module_ Stub.api) :=
  c ← class_ VimbaSystem (unique_ptr default_delete) module "VimbaSystem";
  let c := def "GetInstance" (VimbaSystem_GetInstance Stub.api) c in
  let c := def "GetCameras" (VimbaSystem_GetCameras Stub.api) c in
  Some (cl_scope c).

Definition careless_world : option (world Stub.api) :=
  m ← PYBIND11_MODULE "cmanta" careless_init;
  Some {| sdk := Stub.lab : Env Stub.api; py_module := m; instances := [];
          next_id := 1; dealloc_log := [] |}.

(** ** Further notions about calls and live instances *)

Section Call_notions.
Context {V : VimbaSDK}.

(** The C++ function behind attribute [a] of the class [VimbaSystem] of a
    module: the function of the first overload registered under [a]. *)
Definition bound_function (m : module_ V) (a : string)
    : option (cpp_function (Env V) (Exn V)) :=
  t ← m_dict m !! "VimbaSystem"; chain ← tp_dict t !! a; fr_impl <$> head chain.

(** An operation that calls a bound function of the class. *)
Definition is_bound_call (m : module_ V) (o : op) : bool :=
  match o with
  | CallOnClass cls a _ =>
      bool_decide (cls = "VimbaSystem") &&
      match bound_function m a with Some _ => true | None => false end
  | CallOnInstance _ a _ =>
      match bound_function m a with Some _ => true | None => false end
  | _ => false
  end.

(** What holds of the live instances: each wraps a [VimbaSystem], is
    referenced at least once, has its holder exactly when it owns the
    object, and carries an identifier handed out before. *)
Definition instance_wf (w : world V) (ki : N * instance) : Prop :=
  (ki.1 < next_id w)%N ∧ i_type ki.2 = VimbaSystem ∧ 0 < i_refcnt ki.2 ∧
  i_holder_constructed ki.2 = i_owned ki.2.

Definition instances_wf (w : world V) : Prop :=
  NoDup (instances w).*1 ∧ Forall (instance_wf w) (instances w).

(** A bound function whose result can never become a new instance: it
    does not return a [VimbaSystem], or it returns one by reference and the
    class has no copy constructor for the default policy to use. *)
Definition cannot_wrap (f : cpp_function (Env V) (Exn V)) : Prop :=
  fn_ret f ≠ TUser VimbaSystem ∨
  (fn_pass f = ByRef ∧ VimbaSystem_copy V = None).

End Call_notions.

(** An SDK whose enumeration can be called and reports through an error
    code: the accessor returns a pointer, [GetCameras] takes the receiver
    only, counts its calls and returns a [VmbErrorType]. *)
Module Coded.
Record env := { calls : nat }.

Definition instance_addr : N := 4096.

Definition GetInstance : cpp_function env string :=
  {| fn_member := false; fn_params := [];
     fn_ret := TUser VimbaSystem; fn_pass := ByPtr;
     fn_body := λ _ e, (Return (CUser VimbaSystem instance_addr), e) |}.

Definition GetCameras : cpp_function env string :=
  {| fn_member := true; fn_params := [];
     fn_ret := TUser "VmbErrorType"; fn_pass := ByValue;
     fn_body := λ _ e,
       (Return (CUser "VmbErrorType" 0), {| calls := S (calls e) |}) |}.

Definition api : VimbaSDK :=
  {| Env := env; Exn := string;
     VimbaSystem_GetInstance := GetInstance;
     VimbaSystem_GetCameras := GetCameras;
     VimbaSystem_copy := None; VimbaSystem_move := None |}.

Definition fresh : env := {| calls := 0 |}.

(** The world after the import and one call of the accessor: the caller
    holds the handle 1. *)
Definition world1 : world api :=
  run [CallOnClass "VimbaSystem" "GetInstance" []] (loaded (V := api) fresh).
End Coded.

(** A scope that already holds a class [Camera] before the body of the
    binding runs on it. *)
Definition Camera_type : py_type Vimba.api :=
  {| tp_name := "Camera"; tp_cpp := "Camera"; tp_dict := ∅ |}.

Definition Camera_info : type_info :=
  {| ti_type := "Camera"; ti_holder := unique_ptr default_delete;
     ti_implicit_conversions := [] |}.

Definition scope_with_Camera : module_ Vimba.api :=
  {| m_name := "cmanta";
     m_dict := {["Camera" := Camera_type]};
     registered_types_cpp := {["Camera" := Camera_info]} |}.

(** * Properties *)

(** ** Facts about the imported module *)

Section Module_facts.
Context {V : VimbaSDK}.

(** The import succeeds and yields [cmanta]. *)
Lemma import_cmanta_ok : import_cmanta = Some (cmanta (V := V)).
Proof. reflexivity. Qed.

Lemma boot_loaded (e : Env V) : boot e = Some (loaded e).
Proof. reflexivity. Qed.

Lemma imported_module (w : world V) : imported w → py_module w = cmanta.
Proof.
  unfold imported. rewrite import_cmanta_ok. intros H. by injection H.
Qed.

Lemma imported_loaded (e : Env V) : imported (loaded e).
Proof. reflexivity. Qed.

Lemma cmanta_type (k : string) :
  m_dict (cmanta (V := V)) !! k =
    if bool_decide (k = "VimbaSystem") then Some VimbaSystem_type else None.
Proof.
  unfold cmanta; cbn [m_dict]. case_bool_decide as Hk.
  - subst k. apply lookup_singleton_eq.
  - apply lookup_singleton_ne. congruence.
Qed.

Lemma cmanta_registry (ty : string) :
  registered_types_cpp (cmanta (V := V)) !! ty =
    if bool_decide (ty = VimbaSystem) then Some VimbaSystem_info else None.
Proof.
  unfold cmanta; cbn [registered_types_cpp]. case_bool_decide as Hk.
  - subst ty. apply lookup_singleton_eq.
  - apply lookup_singleton_ne. congruence.
Qed.

Lemma VimbaSystem_attr (a : string) :
  tp_dict (VimbaSystem_type (V := V)) !! a =
    if bool_decide (a = "GetInstance")
    then Some [cpp_function_of "GetInstance" (VimbaSystem_GetInstance V)]
    else if bool_decide (a = "GetCameras")
    then Some [cpp_function_of "GetCameras" (VimbaSystem_GetCameras V)]
    else None.
Proof.
  unfold VimbaSystem_type; cbn [tp_dict].
  repeat case_bool_decide; subst.
  - rewrite lookup_insert_ne by done. apply lookup_insert_eq.
  - apply lookup_insert_eq.
  - rewrite !lookup_insert_ne by congruence. apply lookup_empty.
Qed.

Lemma VimbaSystem_no_init :
  tp_dict (VimbaSystem_type (V := V)) !! "__init__" = None.
Proof. by rewrite VimbaSystem_attr. Qed.

(** Both functions are registered by [def]: instance methods with the
    default return value policy, wrapping the SDK function itself. *)
Lemma registered_as_method (a : string) (chain : list (function_record V)) :
  tp_dict VimbaSystem_type !! a = Some chain →
  binds_self chain = true ∧
  Forall (λ r, fr_is_method r = true ∧ fr_policy r = automatic ∧
               (fr_impl r = VimbaSystem_GetInstance V ∨
                fr_impl r = VimbaSystem_GetCameras V)) chain.
Proof.
  rewrite VimbaSystem_attr.
  repeat case_bool_decide; intros [= <-]; split; try done;
    (constructor; [|constructor]); repeat split; cbn; auto.
Qed.

End Module_facts.

(** ** Every operation is a frame *)

Section Frame_facts.
Context {V : VimbaSDK}.

Lemma frame_refl (w : world V) : frame w w.
Proof. by split. Qed.

Lemma frame_trans (w1 w2 w3 : world V) :
  frame w1 w2 → frame w2 w3 → frame w1 w3.
Proof.
  intros [Hm1 Hl1 Hs1 Hh1] [Hm2 Hl2 Hs2 Hh2]. split.
  - congruence.
  - congruence.
  - by etrans.
  - auto.
Qed.

Lemma with_sdk_frame (e : Env V) (w : world V) :
  sdk_entry (sdk w) e → frame w (with_sdk e w).
Proof. intros He. split; cbn; auto. by apply rtc_once. Qed.

Lemma update_refcnt_holders (id : N) (f : nat → nat) (l : list (N * instance)) :
  Forall holder_ok l →
  Forall holder_ok (update_instance id (λ i, set_refcnt (f (i_refcnt i)) i) l).
Proof.
  induction 1 as [|[k i] l Hi Hl IH]; cbn; [constructor|].
  destruct (k =? id)%N; constructor; auto.
Qed.

Lemma remove_instance_holders (id : N) (l : list (N * instance)) :
  Forall holder_ok l → Forall holder_ok (remove_instance id l).
Proof.
  induction 1 as [|[k i] l Hi Hl IH]; cbn; [constructor|].
  destruct (k =? id)%N; [done|]. by constructor.
Qed.

Lemma new_instance_frame (ty : string) (a : N) (owned : bool) (w : world V) :
  frame w (new_instance ty a owned w).2.
Proof. split; cbn; [done..|]. intros H. by constructor. Qed.

Lemma construct_from_frame ctor ty a (w : world V) res :
  ctor = VimbaSystem_copy V ∨ ctor = VimbaSystem_move V →
  construct_from ctor ty a w = Some res → frame w res.2.
Proof.
  intros Hc. unfold construct_from.
  destruct ctor as [c|] eqn:E; cbn; [|done]. intros [= <-].
  eapply frame_trans; [|apply new_instance_frame].
  apply with_sdk_frame. destruct Hc; subst.
  - by apply entry_copy.
  - by apply entry_move.
Qed.

Lemma cast_user_frame p k ty a (w : world V) :
  frame w (cast_user p k ty a w).2.
Proof.
  unfold cast_user.
  destruct (registered_types_cpp (py_module w) !! ty); [|apply frame_refl].
  destruct (bool_decide (k = ByPtr) && (a =? 0)%N); [apply frame_refl|].
  destruct (find_registered_instance ty a (instances w)) as [id|].
  { split; cbn; [done..|]. apply (update_refcnt_holders id S). }
  pose proof (construct_from_frame (VimbaSystem_copy V) ty a w) as Hcopy.
  pose proof (construct_from_frame (VimbaSystem_move V) ty a w) as Hmove.
  destruct (resolve_policy p k); try apply new_instance_frame.
  - destruct (construct_from (VimbaSystem_copy V) ty a w) as [res|];
      cbn; [eapply Hcopy; eauto | apply frame_refl].
  - destruct (construct_from (VimbaSystem_move V) ty a w) as [res|];
      cbn; [eapply Hmove; eauto |].
    destruct (construct_from (VimbaSystem_copy V) ty a w) as [res|];
      cbn; [eapply Hcopy; eauto | apply frame_refl].
Qed.

Lemma cast_out_frame p k t v (w : world V) : frame w (cast_out p k t v w).2.
Proof.
  destruct t, v; cbn; try apply frame_refl. apply cast_user_frame.
Qed.

Lemma invoke_frame r cargs (w : world V) :
  forwards_sdk r → frame w (invoke r cargs w).2.
Proof.
  intros Hr. unfold invoke.
  assert (frame w (with_sdk (fn_body (fr_impl r) cargs (sdk w)).2 w)) as Hw.
  { apply with_sdk_frame. destruct Hr as [-> | ->]; constructor. }
  destruct (fn_body (fr_impl r) cargs (sdk w)).1; cbn; [|done].
  eapply frame_trans; [exact Hw | apply cast_out_frame].
Qed.

Lemma dispatcher_frame chain args (w : world V) :
  Forall forwards_sdk chain → frame w (dispatcher chain args w).2.
Proof.
  induction 1 as [|r chain Hr Hchain IH]; cbn; [apply frame_refl|].
  case_bool_decide; [|done].
  destruct (load_args w (arg_types (fr_impl r)) args); [|done].
  by apply invoke_frame.
Qed.

Lemma lookup_instance_elem id i (l : list (N * instance)) :
  lookup_instance id l = Some i → (id, i) ∈ l.
Proof.
  induction l as [|[k j] l IH]; cbn; [done|].
  destruct (k =? id)%N eqn:E.
  - intros [= ->]. apply N.eqb_eq in E as ->. left.
  - intros H. right. auto.
Qed.

(** Deallocation in the imported module: the holder of the only
    registered type is [unique_ptr<VimbaSystem, nodelete>], whose deleter
    does nothing. *)
Lemma clear_instance_nodelete i log :
  i_holder_constructed i = i_owned i →
  clear_instance (cmanta (V := V)) i log = log.
Proof.
  intros Hi. unfold clear_instance. rewrite Hi, orb_diag.
  destruct (i_owned i); [|done].
  rewrite cmanta_registry. by case_bool_decide.
Qed.

Lemma Py_DECREF_frame id i (w : world V) :
  imported w → Forall holder_ok (instances w) →
  lookup_instance id (instances w) = Some i →
  frame w (Py_DECREF id i w).
Proof.
  intros Hm Hok Hi. unfold Py_DECREF.
  destruct (i_refcnt i) as [|[|n]].
  3: { split; cbn; [done..|]. intros _.
       apply (update_refcnt_holders id (λ _, S n)), Hok. }
  all: split; cbn; [done| |done|auto using remove_instance_holders].
  all: rewrite (imported_module _ Hm); apply clear_instance_nodelete.
  all: apply lookup_instance_elem in Hi.
  all: by apply (proj1 (Forall_forall _ _) Hok) in Hi.
Qed.

Lemma attr_forwards_sdk a chain :
  tp_dict (VimbaSystem_type (V := V)) !! a = Some chain →
  Forall forwards_sdk chain.
Proof.
  intros H. apply registered_as_method in H as [_ H].
  eapply Forall_impl; [exact H|]. intros r (_ & _ & Hr). exact Hr.
Qed.

Lemma type_of_cmanta i t :
  type_of (cmanta (V := V)) i = Some t → t = VimbaSystem_type.
Proof.
  unfold type_of. rewrite cmanta_registry.
  case_bool_decide; [|done].
  cbn [mbind option_bind]. unfold VimbaSystem_info; cbn [ti_type].
  rewrite cmanta_type. case_bool_decide; [|done]. by intros [= <-].
Qed.

Lemma step_frame o (w : world V) :
  imported w → Forall holder_ok (instances w) → frame w (step o w).2.
Proof.
  intros Hm Hok. pose proof (imported_module _ Hm) as Em.
  destruct o as [cls a args | recv a args | cls args | id]; cbn.
  - rewrite Em, cmanta_type.
    case_bool_decide; [|apply frame_refl].
    destruct (tp_dict VimbaSystem_type !! a) as [chain|] eqn:Ea;
      [|apply frame_refl].
    eapply dispatcher_frame, attr_forwards_sdk, Ea.
  - destruct (lookup_instance recv (instances w)) as [i|];
      [|apply frame_refl].
    rewrite Em.
    destruct (type_of cmanta i) as [t|] eqn:Et; [|apply frame_refl].
    apply type_of_cmanta in Et as ->.
    destruct (tp_dict VimbaSystem_type !! a) as [chain|] eqn:Ea;
      [|apply frame_refl].
    eapply dispatcher_frame, attr_forwards_sdk, Ea.
  - rewrite Em, cmanta_type.
    case_bool_decide; [|apply frame_refl].
    rewrite VimbaSystem_no_init. apply frame_refl.
  - destruct (lookup_instance id (instances w)) as [i|] eqn:Ei;
      [|apply frame_refl].
    by apply Py_DECREF_frame.
Qed.

Lemma run_frame ops (w : world V) :
  imported w → Forall holder_ok (instances w) → frame w (run ops w).
Proof.
  revert w. induction ops as [|o ops IH]; intros w Hm Hok; cbn.
  - apply frame_refl.
  - pose proof (step_frame o w Hm Hok) as Hstep.
    eapply frame_trans; [exact Hstep|]. apply IH.
    + unfold imported. by rewrite (frame_module _ _ Hstep).
    + by apply (frame_holders _ _ Hstep).
Qed.

End Frame_facts.

(** ** Calls of the bound operations are forwardings *)

Section Forwarding_facts.
Context {V : VimbaSDK}.

Lemma load_args_length (w : world V) ts args cargs :
  load_args w ts args = Some cargs → length args = length ts.
Proof.
  revert args cargs. induction ts as [|t ts IH]; intros [|a args] cargs;
    cbn; try done.
  destruct (load w t a); cbn; [|done].
  destruct (load_args w ts args) as [vs|] eqn:E; cbn; [|done].
  intros _. f_equal. by eapply IH.
Qed.

(** A chain with the single overload [def] created dispatches like
    [forward]. *)
Lemma dispatcher_single name f args (w : world V) :
  dispatcher [cpp_function_of name f] args w = forward f args w.
Proof.
  unfold forward; cbn [dispatcher cpp_function_of fr_impl].
  destruct (load_args w (arg_types f) args) as [cargs|] eqn:E.
  - rewrite bool_decide_eq_true_2 by (eapply load_args_length, E).
    reflexivity.
  - by case_bool_decide.
Qed.

Lemma dispatch_attr a args (w : world V) :
  match tp_dict VimbaSystem_type !! a with
  | Some chain => dispatcher chain args w
  | None => (Raised (AttributeError a), w)
  end = call_attr a args w.
Proof.
  unfold call_attr. rewrite VimbaSystem_attr.
  repeat case_bool_decide; try done; apply dispatcher_single.
Qed.

Lemma step_call_on_class cls a args (w : world V) :
  imported w →
  step (CallOnClass cls a args) w =
    if bool_decide (cls = "VimbaSystem") then call_attr a args w
    else (Raised (AttributeError cls), w).
Proof.
  intros Hm. cbn [step]. rewrite (imported_module _ Hm), cmanta_type.
  case_bool_decide; [|done]. apply dispatch_attr.
Qed.

Lemma type_of_cmanta_eq i :
  type_of (cmanta (V := V)) i =
    if bool_decide (i_type i = VimbaSystem) then Some VimbaSystem_type
    else None.
Proof.
  unfold type_of. rewrite cmanta_registry.
  case_bool_decide; [|done].
  cbn [mbind option_bind]. unfold VimbaSystem_info; cbn [ti_type].
  rewrite cmanta_type. by case_bool_decide.
Qed.

Lemma step_call_on_instance recv a args (w : world V) :
  imported w →
  step (CallOnInstance recv a args) w =
    match lookup_instance recv (instances w) with
    | Some i =>
        if bool_decide (i_type i = VimbaSystem)
        then call_attr a (PyInst recv :: args) w
        else (Raised NameError, w)
    | None => (Raised NameError, w)
    end.
Proof.
  intros Hm. cbn [step]. rewrite (imported_module _ Hm).
  destruct (lookup_instance recv (instances w)) as [i|]; [|done].
  rewrite type_of_cmanta_eq. case_bool_decide; [|done].
  rewrite <- dispatch_attr.
  destruct (tp_dict VimbaSystem_type !! a) as [chain|] eqn:Ea; [|done].
  apply registered_as_method in Ea as [-> _]. done.
Qed.

Lemma step_construct cls args (w : world V) :
  imported w →
  step (Construct cls args) w =
    if bool_decide (cls = "VimbaSystem")
    then (Raised TypeError_no_constructor, w)
    else (Raised (AttributeError cls), w).
Proof.
  intros Hm. cbn [step]. rewrite (imported_module _ Hm), cmanta_type.
  case_bool_decide; [|done]. by rewrite VimbaSystem_no_init.
Qed.

Lemma forward_no_handle f args (w : world V) id :
  imported w → fn_ret f ≠ TUser VimbaSystem →
  (forward f args w).1 ≠ Returned (PyInst id).
Proof.
  intros Hm Hret. unfold forward.
  destruct (load_args w (arg_types f) args) as [cargs|]; [|done].
  cbn zeta. destruct (fn_body f cargs (sdk w)) as [[v|e] env']; cbn [fst snd];
    [|done].
  destruct (fn_ret f) as [| |ty], v as [|z|ty' a]; try done.
  cbn [cast_out]. unfold cast_user; cbn [py_module with_sdk].
  rewrite (imported_module _ Hm), cmanta_registry.
  case_bool_decide; [congruence|done].
Qed.

End Forwarding_facts.

(** ** The model at work *)

(** In the stub environment the accessor yields a handle, the handle serves
    as receiver of the enumeration, and an SDK exception reaches the
    caller. *)
Example stub_GetInstance :
  (step (CallOnClass "VimbaSystem" "GetInstance" []) (Stub.world0 Stub.lab)).1
  = Returned (PyInst 1).
Proof. reflexivity. Qed.

Example stub_GetCameras :
  (step (CallOnInstance 1 "GetCameras" [])
        (run [CallOnClass "VimbaSystem" "GetInstance" []] (Stub.world0 Stub.lab))).1
  = Returned (PyInt 2).
Proof. reflexivity. Qed.

Example stub_GetCameras_throws :
  (step (CallOnInstance 1 "GetCameras" [])
        (run [CallOnClass "VimbaSystem" "GetInstance" []]
             (Stub.world0 Stub.unplugged))).1
  = Raised (SdkError "transport layer down").
Proof. reflexivity. Qed.

(** A second call finds the instance registered for the object and returns
    the same handle. *)
Example stub_GetInstance_twice :
  (step (CallOnClass "VimbaSystem" "GetInstance" [])
        (run [CallOnClass "VimbaSystem" "GetInstance" []] (Stub.world0 Stub.lab))).1
  = Returned (PyInst 1).
Proof. reflexivity. Qed.

(** Releasing the last reference to the handle removes the instance and
    leaves the C++ object alone. *)
Example stub_release :
  let w := run [CallOnClass "VimbaSystem" "GetInstance" []; Release 1]
               (Stub.world0 Stub.lab) in
  instances w = [] ∧ dealloc_log w = [].
Proof. split; reflexivity. Qed.

(** With pybind11's default holder the same release destroys the
    singleton. *)
Example default_holder_destroys :
  dealloc_log <$>
    (run [CallOnClass "VimbaSystem" "GetInstance" []; Release 1] <$> careless_world)
  = Some [Destroyed VimbaSystem Stub.instance_addr].
Proof. reflexivity. Qed.

(** With the declarations of the Vimba header the accessor is reached
    without a receiver, and its result, a reference to a class that cannot
    be copied, does not convert. *)
Example vimba_GetInstance :
  (step (CallOnClass "VimbaSystem" "GetInstance" []) Vimba.world0).1
  = Raised RuntimeError_noncopyable.
Proof. reflexivity. Qed.

(** ** Receiver and arity *)

Section Receiver.
Context {V : VimbaSDK}.

(** Whether a call needs a receiver is decided by the declaration of the
    SDK function, not by [def]: a member function takes the receiver as
    its first argument, a static one has no place for it. *)
Lemma member_needs_receiver f (w : world V) :
  fn_member f = true → forward f [] w = (Raised TypeError_arguments, w).
Proof. intros Hf. unfold forward, arg_types. by rewrite Hf. Qed.

Lemma static_rejects_receiver f recv (w : world V) :
  fn_member f = false → fn_params f = [] →
  forward f [PyInst recv] w = (Raised TypeError_arguments, w).
Proof. intros Hf Hp. unfold forward, arg_types. by rewrite Hf, Hp. Qed.

(** More arguments than parameters are refused whatever the
    declaration. *)
Lemma surplus_arguments_refused f args (w : world V) :
  length (arg_types f) < length args →
  forward f args w = (Raised TypeError_arguments, w).
Proof.
  intros Hlen. unfold forward.
  destruct (load_args w (arg_types f) args) as [cargs|] eqn:E; [|done].
  apply load_args_length in E. lia.
Qed.

End Receiver.

(** ** Worlds without handles *)

Section No_handle_facts.
Context {V : VimbaSDK}.

Lemma with_sdk_same (w : world V) : with_sdk (sdk w) w = w.
Proof. by destruct w. Qed.

(** With no live instance and a function that cannot wrap, the result
    conversion creates nothing and hands out no instance. *)
Lemma cast_out_no_wrap (f : cpp_function (Env V) (Exn V)) v (w : world V) :
  imported w → instances w = [] → cannot_wrap (V := V) f →
  (cast_out automatic (fn_pass f) (fn_ret f) v w).2 = w ∧
  ∀ id, (cast_out automatic (fn_pass f) (fn_ret f) v w).1 ≠ Returned (PyInst id).
Proof.
  intros Hm Hnil Hf.
  destruct (fn_ret f) as [| |ty] eqn:Eret, v as [|z|ty' a]; cbn [cast_out];
    try done.
  unfold cast_user. rewrite (imported_module _ Hm), cmanta_registry.
  case_bool_decide as Hty; [subst ty|done].
  destruct Hf as [Hf|[Hpass Hcopy]]; [done|].
  rewrite Hpass, Hnil. cbn.
  unfold construct_from. by rewrite Hcopy.
Qed.

Lemma forward_no_wrap (f : cpp_function (Env V) (Exn V)) args (w : world V) :
  imported w → instances w = [] → cannot_wrap (V := V) f →
  (forward f args w).2 = with_sdk (sdk (forward f args w).2) w ∧
  ∀ id, (forward f args w).1 ≠ Returned (PyInst id).
Proof.
  intros Hm Hnil Hf. unfold forward.
  destruct (load_args w (arg_types f) args) as [cargs|];
    [|by rewrite with_sdk_same].
  cbn zeta. destruct (fn_body f cargs (sdk w)) as [[v|x] env']; cbn [fst snd];
    [|done].
  destruct (cast_out_no_wrap f v (with_sdk env' w)) as [Hw Hout]; try done.
  by rewrite Hw.
Qed.

Lemma step_no_wrap o (w : world V) :
  imported w → instances w = [] →
  cannot_wrap (VimbaSystem_GetInstance V) →
  cannot_wrap (VimbaSystem_GetCameras V) →
  (step o w).2 = with_sdk (sdk (step o w).2) w ∧
  ∀ id, (step o w).1 ≠ Returned (PyInst id).
Proof.
  intros Hm Hnil HI HC. destruct o as [cls a args | recv a args | cls args | id].
  - rewrite step_call_on_class by done.
    case_bool_decide; [|by rewrite with_sdk_same]. unfold call_attr.
    repeat case_bool_decide; try (by rewrite with_sdk_same);
      by apply forward_no_wrap.
  - rewrite step_call_on_instance, Hnil by done. by rewrite with_sdk_same.
  - rewrite step_construct by done.
    case_bool_decide; by rewrite with_sdk_same.
  - cbn [step]. rewrite Hnil. by rewrite with_sdk_same.
Qed.

Lemma run_no_wrap ops (e : Env V) :
  cannot_wrap (VimbaSystem_GetInstance V) →
  cannot_wrap (VimbaSystem_GetCameras V) →
  run ops (loaded e) = loaded (sdk (run ops (loaded e))).
Proof.
  intros HI HC. revert e. induction ops as [|o ops IH]; intros e; cbn [run].
  - done.
  - destruct (step_no_wrap o (loaded e)) as [Hw _]; try done.
    rewrite Hw. apply (IH (sdk (step o (loaded e)).2)).
Qed.

End No_handle_facts.

(** ** The specification's claims *)

(** C4. Importing the binding yields a module [cmanta] whose only attribute
    is the class [VimbaSystem]; that class has exactly the two attributes
    [GetInstance] and [GetCameras]; each is a single overload whose C++
    function is the SDK's [VimbaSystem::GetInstance], respectively
    [VimbaSystem::GetCameras], itself, registered as a method with the
    default return value policy; the only registered C++ type is
    [VimbaSystem], and no implicit type conversion is registered. *)
Theorem cmanta_exposes_exactly_two_methods (V : VimbaSDK) :
  ∃ (m : module_ V) (t : py_type V) (ti : type_info),
    import_cmanta = Some m ∧
    m_name m = "cmanta" ∧
    (∀ k, m_dict m !! k =
            if bool_decide (k = "VimbaSystem") then Some t else None) ∧
    tp_name t = "VimbaSystem" ∧
    (∀ a, tp_dict t !! a =
            if bool_decide (a = "GetInstance")
            then Some [ {| fr_name := "GetInstance"; fr_is_method := true;
                           fr_policy := automatic;
                           fr_impl := VimbaSystem_GetInstance V |} ]
            else if bool_decide (a = "GetCameras")
            then Some [ {| fr_name := "GetCameras"; fr_is_method := true;
                           fr_policy := automatic;
                           fr_impl := VimbaSystem_GetCameras V |} ]
            else None) ∧
    (∀ a r, r ∈ default [] (tp_dict t !! a) →
            fr_name r = a ∧
            (fr_impl r = VimbaSystem_GetInstance V ∧ a = "GetInstance" ∨
             fr_impl r = VimbaSystem_GetCameras V ∧ a = "GetCameras")) ∧
    (∀ ty, registered_types_cpp m !! ty =
             if bool_decide (ty = VimbaSystem) then Some ti else None) ∧
    ti_type ti = tp_name t ∧
    ti_implicit_conversions ti = [].
Proof.
  exists cmanta, VimbaSystem_type, VimbaSystem_info.
  split_and!; try reflexivity.
  - apply cmanta_type.
  - apply VimbaSystem_attr.
  - intros a r. rewrite VimbaSystem_attr.
    repeat case_bool_decide; cbn [default]; subst.
    + intros ->%list_elem_of_singleton. cbn. auto.
    + intros ->%list_elem_of_singleton. cbn. auto.
    + by intros ?%elem_of_nil.
  - apply cmanta_registry.
Qed.

(** C10. [VimbaSystem] is the only type the module registers.  Any other
    C++ type, a camera, camera pointer or camera list among them, has no
    entry in the registry, so no Python object converts to it and no value
    of it converts to a Python object. *)
Theorem only_VimbaSystem_is_registered (V : VimbaSDK) (w : world V)
    (ty : string) :
  imported w → ty ≠ VimbaSystem →
  dom (registered_types_cpp (py_module w)) = {[VimbaSystem]} ∧
  dom (m_dict (py_module w)) = {["VimbaSystem"]} ∧
  registered_types_cpp (py_module w) !! ty = None ∧
  (∀ k o, load w (TUser ty, k) o = None) ∧
  (∀ p k a, cast_out p k (TUser ty) (CUser ty a) w = (Raised TypeError_return, w)).
Proof.
  intros Hm Hty. pose proof (imported_module _ Hm) as Em.
  assert (registered_types_cpp (py_module w) !! ty = None) as Hnone.
  { rewrite Em, cmanta_registry. by case_bool_decide. }
  split_and!.
  - rewrite Em. apply dom_singleton_L.
  - rewrite Em. apply dom_singleton_L.
  - exact Hnone.
  - intros k o. unfold load; cbn [fst snd]. rewrite Hnone. by destruct o.
  - intros p k a. cbn [cast_out]. unfold cast_user. by rewrite Hnone.
Qed.

Lemma only_VimbaSystem_is_registered_witness :
  imported Vimba.world0 ∧ "CameraPtrVector" ≠ VimbaSystem ∧
  registered_types_cpp (py_module Vimba.world0) !! "CameraPtrVector" = None.
Proof.
  split; [reflexivity|]. split; [discriminate|].
  apply (only_VimbaSystem_is_registered Vimba.api Vimba.world0 "CameraPtrVector");
    [reflexivity | discriminate].
Defined.

(** C2. Whatever the calling environment does after the import (calls on
    the class, calls on instances, construction attempts, releases of
    references), pybind11 never runs a destructor or a deallocation on a
    C++ object on behalf of the binding: the holder of the registered class
    is [unique_ptr<VimbaSystem, nodelete>]. *)
Theorem binding_never_destroys_the_singleton (V : VimbaSDK) (e : Env V)
    (ops : list op) :
  ∃ w0, boot e = Some w0 ∧
        (∀ ti, registered_types_cpp (py_module w0) !! VimbaSystem = Some ti →
               ti_holder ti = unique_ptr nodelete) ∧
        dealloc_log (run ops w0) = [].
Proof.
  exists (loaded e). split_and!.
  - apply boot_loaded.
  - cbn [loaded py_module]. rewrite cmanta_registry.
    case_bool_decide; [|done]. by intros ti [= <-].
  - apply (frame_log _ _ (run_frame ops (loaded e) (imported_loaded e)
                                    (Forall_nil_2 _))).
Qed.



(** C8. The class has no constructor: the binding defines no [__init__],
    every attempt to instantiate [VimbaSystem] raises [TypeError] and leaves
    the world as it was, and (the SDK's [GetCameras] not returning a
    [VimbaSystem]) an operation that hands the caller an instance is a call
    of [GetInstance]. *)
Theorem VimbaSystem_has_no_constructor (V : VimbaSDK) (w : world V) :
  imported w →
  fn_ret (VimbaSystem_GetCameras V) ≠ TUser VimbaSystem →
  (∃ t, m_dict (py_module w) !! "VimbaSystem" = Some t ∧
        tp_dict t !! "__init__" = None) ∧
  (∀ args, step (Construct "VimbaSystem" args) w =
             (Raised TypeError_no_constructor, w)) ∧
  (∀ o id, (step o w).1 = Returned (PyInst id) → is_GetInstance_call o = true).
Proof.
  intros Hm Hret. split_and!.
  - exists VimbaSystem_type. rewrite (imported_module _ Hm), cmanta_type.
    split; [done | apply VimbaSystem_no_init].
  - intros args. by rewrite step_construct.
  - intros [cls a args | recv a args | cls args | id'] id.
    + rewrite step_call_on_class by done. cbn [is_GetInstance_call].
      case_bool_decide; [|done]. unfold call_attr.
      repeat case_bool_decide; try done.
      intros Hout. by apply forward_no_handle in Hout.
    + rewrite step_call_on_instance by done. cbn [is_GetInstance_call].
      destruct (lookup_instance recv (instances w)); [|done].
      case_bool_decide; [|done]. unfold call_attr.
      repeat case_bool_decide; try done.
      intros Hout. by apply forward_no_handle in Hout.
    + rewrite step_construct by done. by case_bool_decide.
    + cbn [step]. by destruct (lookup_instance id' (instances w)).
Qed.

Lemma VimbaSystem_has_no_constructor_witness :
  imported Vimba.world0 ∧
  fn_ret (VimbaSystem_GetCameras Vimba.api) ≠ TUser VimbaSystem ∧
  step (Construct "VimbaSystem" [PyInt 1]) Vimba.world0 =
    (Raised TypeError_no_constructor, Vimba.world0).
Proof.
  split; [reflexivity|]. split; [discriminate|].
  apply (VimbaSystem_has_no_constructor Vimba.api Vimba.world0);
    [reflexivity | discriminate].
Defined.

(** ** Further properties of the binding *)

Section Init_facts.
Context {V : VimbaSDK}.

Lemma class_Some cpp holder (m : module_ V) name c :
  class_ cpp holder m name = Some c →
  registered_types_cpp m !! cpp = None ∧ m_dict m !! name = None ∧
  cl_key c = name ∧
  m_dict (cl_scope c) = <[name := {| tp_name := name; tp_cpp := cpp;
                                      tp_dict := ∅ |}]> (m_dict m) ∧
  registered_types_cpp (cl_scope c) =
    <[cpp := {| ti_type := name; ti_holder := holder;
                ti_implicit_conversions := [] |}]> (registered_types_cpp m) ∧
  m_name (cl_scope c) = m_name m.
Proof.
  unfold class_.
  destruct (registered_types_cpp m !! cpp), (m_dict m !! name); try done.
  by intros [= <-].
Qed.

Lemma class_None cpp holder (m : module_ V) name :
  class_ cpp holder m name = None ↔
  is_Some (registered_types_cpp m !! cpp) ∨ is_Some (m_dict m !! name).
Proof.
  unfold class_.
  destruct (registered_types_cpp m !! cpp), (m_dict m !! name); split;
    try done; eauto.
  all: intros [[? [=]]|[? [=]]].
Qed.

Lemma two_defs_on_empty_type :
  add_overload (cpp_function_of "GetCameras" (VimbaSystem_GetCameras V))
    (add_overload (cpp_function_of "GetInstance" (VimbaSystem_GetInstance V))
       {| tp_name := "VimbaSystem"; tp_cpp := VimbaSystem; tp_dict := ∅ |})
  = VimbaSystem_type.
Proof. reflexivity. Qed.

End Init_facts.

(** X1. Run on any module object, not only a fresh one, the body of the
    binding adds exactly the class [VimbaSystem], whose dictionary holds
    the SDK's [GetInstance] and [GetCameras] and nothing else, and the
    registration of the C++ type with the [nodelete] holder; it leaves the
    name of the module, every other attribute and every other registration
    of the scope as it found them. *)
Theorem init_extends_the_scope (V : VimbaSDK) (m m' : module_ V) :
  pybind11_init_cmanta m = Some m' →
  m_name m' = m_name m ∧
  (∃ t, m_dict m' !! "VimbaSystem" = Some t ∧
        tp_name t = "VimbaSystem" ∧ tp_cpp t = VimbaSystem ∧
        ∀ a, tp_dict t !! a =
               if bool_decide (a = "GetInstance")
               then Some [ {| fr_name := "GetInstance"; fr_is_method := true;
                              fr_policy := automatic;
                              fr_impl := VimbaSystem_GetInstance V |} ]
               else if bool_decide (a = "GetCameras")
               then Some [ {| fr_name := "GetCameras"; fr_is_method := true;
                              fr_policy := automatic;
                              fr_impl := VimbaSystem_GetCameras V |} ]
               else None) ∧
  (∀ k, k ≠ "VimbaSystem" → m_dict m' !! k = m_dict m !! k) ∧
  registered_types_cpp m' !! VimbaSystem
    = Some {| ti_type := "VimbaSystem"; ti_holder := unique_ptr nodelete;
              ti_implicit_conversions := [] |} ∧
  (∀ ty, ty ≠ VimbaSystem →
         registered_types_cpp m' !! ty = registered_types_cpp m !! ty).
Proof.
  unfold pybind11_init_cmanta.
  destruct (class_ VimbaSystem (unique_ptr nodelete) m "VimbaSystem")
    as [c|] eqn:Ec; [|done].
  apply class_Some in Ec as (_ & _ & Hk & Hd & Hr & Hn).
  cbn [mbind option_bind]. intros [= <-].
  cbn [def cl_scope cl_key m_name m_dict registered_types_cpp].
  rewrite Hk, Hd, Hr, Hn. split_and!.
  - done.
  - exists VimbaSystem_type. split_and!; [|done|done|apply VimbaSystem_attr].
    rewrite !lookup_alter_eq, lookup_insert_eq. cbn [fmap option_fmap option_map].
    by rewrite two_defs_on_empty_type.
  - intros k Hne. by rewrite !lookup_alter_ne, lookup_insert_ne.
  - apply lookup_insert_eq.
  - intros ty Hne. by rewrite lookup_insert_ne.
Qed.

Lemma init_extends_the_scope_witness :
  ∃ m', pybind11_init_cmanta scope_with_Camera = Some m' ∧
        m_dict m' !! "Camera" = Some Camera_type ∧
        registered_types_cpp m' !! "Camera" = Some Camera_info ∧
        is_Some (m_dict m' !! "VimbaSystem").
Proof.
  destruct (pybind11_init_cmanta scope_with_Camera) as [m'|] eqn:E;
    [|discriminate E].
  exists m'. split; [reflexivity|].
  destruct (init_extends_the_scope Vimba.api scope_with_Camera m' E)
    as (_ & (t & Ht & _) & Hattr & _ & Hreg).
  split; [|split].
  - rewrite Hattr; [reflexivity | discriminate].
  - rewrite Hreg; [reflexivity | discriminate].
  - rewrite Ht. by eexists.
Defined.

(** X2. The body of the binding fails exactly when the scope already has an
    attribute [VimbaSystem] or the C++ type is already registered; in
    particular it cannot be run a second time on its own result. *)
Theorem init_fails_on_registered_scope (V : VimbaSDK) (m : module_ V) :
  (pybind11_init_cmanta m = None ↔
     is_Some (registered_types_cpp m !! VimbaSystem) ∨
     is_Some (m_dict m !! "VimbaSystem")) ∧
  (∀ m', pybind11_init_cmanta m = Some m' → pybind11_init_cmanta m' = None).
Proof.
  assert (∀ m0 : module_ V, pybind11_init_cmanta m0 = None ↔
            is_Some (registered_types_cpp m0 !! VimbaSystem) ∨
            is_Some (m_dict m0 !! "VimbaSystem")) as Hiff.
  { intros m0. rewrite <- (class_None VimbaSystem (unique_ptr nodelete)).
    unfold pybind11_init_cmanta.
    destruct (class_ VimbaSystem (unique_ptr nodelete) m0 "VimbaSystem");
      cbn [mbind option_bind]; split; done. }
  split; [apply Hiff|].
  intros m' Hm'. apply Hiff. right.
  unfold pybind11_init_cmanta in Hm'.
  destruct (class_ VimbaSystem (unique_ptr nodelete) m "VimbaSystem")
    as [c|] eqn:Ec; [|done].
  apply class_Some in Ec as (_ & _ & Hk & Hd & _ & _).
  cbn [mbind option_bind] in Hm'. injection Hm' as <-.
  cbn [def cl_scope cl_key m_dict]. rewrite Hk, Hd.
  rewrite !lookup_alter_eq, lookup_insert_eq. by eexists.
Qed.

Section Call_facts.
Context {V : VimbaSDK}.

Lemma bound_function_cmanta a :
  bound_function (cmanta (V := V)) a =
    if bool_decide (a = "GetInstance") then Some (VimbaSystem_GetInstance V)
    else if bool_decide (a = "GetCameras") then Some (VimbaSystem_GetCameras V)
    else None.
Proof.
  unfold bound_function. rewrite cmanta_type.
  rewrite bool_decide_eq_true_2 by done. cbn [mbind option_bind].
  rewrite VimbaSystem_attr. by repeat case_bool_decide.
Qed.

Lemma call_attr_bound a f args (w : world V) :
  bound_function (cmanta (V := V)) a = Some f →
  call_attr a args w = forward f args w.
Proof.
  rewrite bound_function_cmanta. unfold call_attr.
  repeat case_bool_decide; by intros [= <-].
Qed.

Lemma call_attr_unbound a args (w : world V) :
  bound_function (cmanta (V := V)) a = None →
  call_attr a args w = (Raised (AttributeError a), w).
Proof.
  rewrite bound_function_cmanta. unfold call_attr.
  by repeat case_bool_decide.
Qed.

(** One parameter that no Python object converts to blocks the whole
    argument list. *)
Lemma load_args_unconvertible (w : world V) t ts args :
  t ∈ ts → (∀ o, load w t o = None) → load_args w ts args = None.
Proof.
  intros Ht Hload. revert args.
  induction ts as [|t' ts IH]; intros [|a args]; cbn; try done.
  - by apply elem_of_nil in Ht.
  - apply elem_of_cons in Ht as [<- | Ht].
    + by rewrite Hload.
    + destruct (load w t' a); cbn; [|done]. by rewrite IH.
Qed.

Lemma load_unregistered (w : world V) ty k o :
  registered_types_cpp (py_module w) !! ty = None →
  load w (TUser ty, k) o = None.
Proof. intros H. unfold load; cbn [fst snd]. rewrite H. by destruct o. Qed.

(** A result of a type without registration is never handed to Python. *)
Lemma forward_unconvertible_result f ty args (w : world V) o :
  fn_ret f = TUser ty →
  registered_types_cpp (py_module w) !! ty = None →
  (forward f args w).1 ≠ Returned o.
Proof.
  intros Hret Hty. unfold forward.
  destruct (load_args w (arg_types f) args) as [cargs|]; [|done].
  cbn zeta. destruct (fn_body f cargs (sdk w)) as [[v|e] env']; cbn [fst snd];
    [|done].
  rewrite Hret. destruct v as [|z|ty' a]; try done.
  cbn [cast_out]. unfold cast_user; cbn [py_module with_sdk]. by rewrite Hty.
Qed.

(** *** Live instances *)

Lemma update_instance_keys id f (l : list (N * instance)) :
  (update_instance id f l).*1 = l.*1.
Proof.
  induction l as [|[k i] l IH]; cbn; [done|].
  destruct (k =? id)%N; cbn; [done|]. by rewrite IH.
Qed.

Lemma update_instance_Forall (P : N * instance → Prop) id f l :
  (∀ k i, P (k, i) → P (k, f i)) →
  Forall P l → Forall P (update_instance id f l).
Proof.
  intros Hf. induction 1 as [|[k i] l Hi Hl IH]; cbn; [constructor|].
  destruct (k =? id)%N; constructor; auto.
Qed.

Lemma remove_instance_elem id x (l : list (N * instance)) :
  x ∈ remove_instance id l → x ∈ l.
Proof.
  induction l as [|[k i] l IH]; cbn; [done|].
  destruct (k =? id)%N.
  - intros H. by right.
  - intros [->|H]%elem_of_cons; [left|right; auto].
Qed.

Lemma remove_instance_NoDup id (l : list (N * instance)) :
  NoDup l.*1 → NoDup (remove_instance id l).*1.
Proof.
  induction l as [|[k i] l IH]; cbn; [done|].
  intros [Hk Hl]%NoDup_cons. destruct (k =? id)%N; [done|].
  cbn. apply NoDup_cons. split; [|auto].
  intros ([k' i'] & -> & Hin%remove_instance_elem)%list_elem_of_fmap.
  apply Hk. apply list_elem_of_fmap. by exists (k', i').
Qed.

Lemma remove_instance_Forall (P : N * instance → Prop) id l :
  Forall P l → Forall P (remove_instance id l).
Proof.
  rewrite !Forall_forall. intros H x Hx. eauto using remove_instance_elem.
Qed.

Lemma instances_wf_with_sdk e (w : world V) :
  instances_wf w → instances_wf (with_sdk e w).
Proof. done. Qed.

Lemma instances_wf_new a owned (w : world V) :
  instances_wf w → instances_wf (new_instance VimbaSystem a owned w).2.
Proof.
  intros [Hnd Hall]. split; cbn.
  - apply NoDup_cons. split; [|done].
    intros ([k i] & Hk & Hin)%list_elem_of_fmap. cbn in Hk. subst k.
    apply (proj1 (Forall_forall _ _) Hall) in Hin as (Hlt & _). cbn in Hlt. lia.
  - constructor.
    + unfold instance_wf; cbn. split_and!; [lia|done|lia|done].
    + eapply Forall_impl; [exact Hall|].
      intros [k i] (Hlt & ? & ? & ?). unfold instance_wf in *; cbn in *.
      split_and!; [lia|done..].
Qed.

Lemma instances_wf_update id f (w : world V) :
  (∀ n, 0 < f n) → instances_wf w →
  instances_wf
    (with_instances
       (update_instance id (λ i, set_refcnt (f (i_refcnt i)) i) (instances w)) w).
Proof.
  intros Hf [Hnd Hall]. split; cbn.
  - by rewrite update_instance_keys.
  - apply update_instance_Forall; [|done].
    intros k i (? & ? & ? & ?). unfold instance_wf in *; cbn in *.
    split_and!; auto.
Qed.

Lemma instances_wf_construct ctor a (w : world V) res :
  construct_from ctor VimbaSystem a w = Some res →
  instances_wf w → instances_wf res.2.
Proof.
  unfold construct_from. destruct ctor as [c|]; cbn; [|done].
  intros [= <-] Hw. by apply instances_wf_new, instances_wf_with_sdk.
Qed.

Lemma instances_wf_cast_out p k t v (w : world V) :
  imported w → instances_wf w → instances_wf (cast_out p k t v w).2.
Proof.
  intros Hm Hw. destruct t as [| |ty], v as [|z|ty' a]; cbn; try done.
  unfold cast_user. rewrite (imported_module _ Hm), cmanta_registry.
  case_bool_decide as Hty; [subst ty|done].
  destruct (bool_decide (k = ByPtr) && (a =? 0)%N); [done|].
  destruct (find_registered_instance VimbaSystem a (instances w)).
  { apply (instances_wf_update _ S); [lia|done]. }
  destruct (resolve_policy p k); try by apply instances_wf_new.
  - destruct (construct_from (VimbaSystem_copy V) VimbaSystem a w) as [res|] eqn:E;
      cbn; [by eapply instances_wf_construct|done].
  - destruct (construct_from (VimbaSystem_move V) VimbaSystem a w) as [res|] eqn:E;
      cbn; [by eapply instances_wf_construct|].
    destruct (construct_from (VimbaSystem_copy V) VimbaSystem a w) as [res|] eqn:E';
      cbn; [by eapply instances_wf_construct|done].
Qed.

Lemma instances_wf_forward f args (w : world V) :
  imported w → instances_wf w → instances_wf (forward f args w).2.
Proof.
  intros Hm Hw. unfold forward.
  destruct (load_args w (arg_types f) args) as [cargs|]; [|done].
  cbn zeta. destruct (fn_body f cargs (sdk w)) as [[v|e] env']; cbn [fst snd];
    [|done].
  by apply instances_wf_cast_out.
Qed.

Lemma instances_wf_call_attr a args (w : world V) :
  imported w → instances_wf w → instances_wf (call_attr a args w).2.
Proof.
  intros Hm Hw. unfold call_attr.
  repeat case_bool_decide; try done; by apply instances_wf_forward.
Qed.

Lemma instances_wf_decref id i (w : world V) :
  instances_wf w → instances_wf (Py_DECREF id i w).
Proof.
  intros Hw. unfold Py_DECREF.
  destruct (i_refcnt i) as [|[|n]].
  3: { apply (instances_wf_update id (λ _, S n)); [lia|done]. }
  all: destruct Hw as [Hnd Hall]; split; cbn;
    [by apply remove_instance_NoDup | by apply remove_instance_Forall].
Qed.

Lemma instances_wf_step o (w : world V) :
  imported w → instances_wf w → instances_wf (step o w).2.
Proof.
  intros Hm Hw. destruct o as [cls a args | recv a args | cls args | id].
  - rewrite step_call_on_class by done.
    case_bool_decide; [by apply instances_wf_call_attr|done].
  - rewrite step_call_on_instance by done.
    destruct (lookup_instance recv (instances w)); [|done].
    case_bool_decide; [by apply instances_wf_call_attr|done].
  - rewrite step_construct by done. by case_bool_decide.
  - cbn [step]. destruct (lookup_instance id (instances w)); [|done].
    by apply instances_wf_decref.
Qed.

Lemma instances_wf_holders (w : world V) :
  instances_wf w → Forall holder_ok (instances w).
Proof.
  intros [_ Hall]. eapply Forall_impl; [exact Hall|].
  by intros ki (_ & _ & _ & ?).
Qed.

Lemma instances_wf_run ops (w : world V) :
  imported w → instances_wf w → instances_wf (run ops w).
Proof.
  revert w. induction ops as [|o ops IH]; intros w Hm Hw; cbn; [done|].
  apply IH; [|by apply instances_wf_step].
  unfold imported.
  by rewrite (frame_module _ _ (step_frame o w Hm (instances_wf_holders w Hw))).
Qed.

End Call_facts.

(** X3. Both bound functions being registered with [def], a call of one of
    them through a live instance is the call on the class with the instance
    put first: [obj.GetCameras(args)] behaves as
    [VimbaSystem.GetCameras(obj, args)], and likewise for [GetInstance]. *)
Theorem method_call_is_class_call (V : VimbaSDK) (w : world V) (recv : N)
    (i : instance) (a : string) (args : list py_obj) :
  imported w →
  is_Some (bound_function (py_module w) a) →
  lookup_instance recv (instances w) = Some i → i_type i = VimbaSystem →
  step (CallOnInstance recv a args) w
    = step (CallOnClass "VimbaSystem" a (PyInst recv :: args)) w.
Proof.
  intros Hm _ Hi Hty.
  rewrite step_call_on_instance, step_call_on_class, Hi by done.
  by rewrite !bool_decide_eq_true_2.
Qed.

Lemma method_call_is_class_call_witness :
  step (CallOnInstance 1 "GetCameras" []) Coded.world1
    = step (CallOnClass "VimbaSystem" "GetCameras" [PyInst 1]) Coded.world1.
Proof.
  eapply (method_call_is_class_call Coded.api Coded.world1 1);
    [reflexivity | by eexists | reflexivity | reflexivity].
Defined.

(** X5. Only calls of the two bound functions reach the SDK: a construction
    attempt, the release of a handle, and a call of any other attribute or
    class leave the SDK state as it was and never raise an SDK error. *)
Theorem only_bound_calls_reach_the_sdk (V : VimbaSDK) (w : world V) (o : op) :
  imported w → is_bound_call (py_module w) o = false →
  sdk (step o w).2 = sdk w ∧ ∀ e, (step o w).1 ≠ Raised (SdkError e).
Proof.
  intros Hm. rewrite (imported_module _ Hm).
  destruct o as [cls a args | recv a args | cls args | id];
    cbn [is_bound_call].
  - rewrite step_call_on_class by done.
    case_bool_decide; [|done]. cbn [andb].
    destruct (bound_function cmanta a) eqn:Ea; [done|].
    by rewrite call_attr_unbound.
  - rewrite step_call_on_instance by done.
    destruct (bound_function cmanta a) eqn:Ea; [done|].
    destruct (lookup_instance recv (instances w)); [|done].
    case_bool_decide; [|done]. by rewrite call_attr_unbound.
  - rewrite step_construct by done. by case_bool_decide.
  - cbn [step]. destruct (lookup_instance id (instances w)) as [i|]; [|done].
    intros _. split; [|done]. unfold Py_DECREF; cbn [snd].
    by destruct (i_refcnt i) as [|[|n]].
Qed.

Lemma only_bound_calls_reach_the_sdk_witness :
  let w := run [CallOnClass "VimbaSystem" "GetInstance" []] (Stub.world0 Stub.lab) in
  sdk (step (Release 1) w).2 = sdk w.
Proof.
  cbv zeta.
  apply (only_bound_calls_reach_the_sdk Stub.api
           (run [CallOnClass "VimbaSystem" "GetInstance" []] (Stub.world0 Stub.lab))
           (Release 1)); reflexivity.
Defined.

(** X6. A bound function called with a number of arguments other than the
    number of parameters of the SDK function (one more for the receiver of
    a member function) is refused with [TypeError]; the SDK function does
    not run and nothing changes. *)
Theorem wrong_argument_count_is_refused (V : VimbaSDK) (w : world V)
    (a : string) (f : cpp_function (Env V) (Exn V)) (args : list py_obj) :
  imported w → bound_function (py_module w) a = Some f →
  length args ≠ length (fn_params f) + (if fn_member f then 1 else 0) →
  step (CallOnClass "VimbaSystem" a args) w = (Raised TypeError_arguments, w).
Proof.
  intros Hm Hf Hlen. rewrite (imported_module _ Hm) in Hf.
  rewrite step_call_on_class, bool_decide_eq_true_2 by done.
  rewrite (call_attr_bound _ _ _ _ Hf). unfold forward.
  destruct (load_args w (arg_types f) args) as [cargs|] eqn:E; [|done].
  apply load_args_length in E. unfold arg_types in E.
  rewrite length_app in E. destruct (fn_member f); cbn in E; lia.
Qed.

Lemma wrong_argument_count_is_refused_witness :
  step (CallOnClass "VimbaSystem" "GetCameras" [PyInt 1; PyInt 2; PyInt 3])
       Vimba.world0
    = (Raised TypeError_arguments, Vimba.world0).
Proof.
  apply (wrong_argument_count_is_refused Vimba.api Vimba.world0 "GetCameras"
           Vimba.GetCameras); [reflexivity | reflexivity | cbn; lia].
Defined.

(** X7. After the import and any sequence of operations, every live
    instance wraps a [VimbaSystem], is referenced at least once, has its
    holder exactly when it owns its object, and the identifiers of the live
    instances are pairwise different and were all handed out before. *)
Theorem live_instances_stay_well_formed (V : VimbaSDK) (e : Env V)
    (ops : list op) :
  instances_wf (run ops (loaded e)).
Proof.
  apply instances_wf_run; [apply imported_loaded|].
  split; cbn; constructor.
Qed.

(** X8. No type but [VimbaSystem] being registered, a bound function whose
    SDK declaration has a parameter of any other class, enum or container
    type (a camera list, say) cannot be called: every call is refused with
    [TypeError] before the SDK function runs. *)
Theorem unconvertible_parameter_blocks_every_call (V : VimbaSDK)
    (w : world V) (a : string) (f : cpp_function (Env V) (Exn V))
    (ty : string) (k : passing) (args : list py_obj) :
  imported w → bound_function (py_module w) a = Some f →
  (TUser ty, k) ∈ fn_params f → ty ≠ VimbaSystem →
  step (CallOnClass "VimbaSystem" a args) w = (Raised TypeError_arguments, w).
Proof.
  intros Hm Hf Hin Hty. pose proof (imported_module _ Hm) as Em.
  rewrite Em in Hf.
  rewrite step_call_on_class, bool_decide_eq_true_2 by done.
  rewrite (call_attr_bound _ _ _ _ Hf). unfold forward.
  rewrite (load_args_unconvertible w (TUser ty, k)); [done| |].
  - unfold arg_types. apply elem_of_app. by right.
  - intros o. apply load_unregistered.
    rewrite Em, cmanta_registry. by case_bool_decide.
Qed.

Lemma unconvertible_parameter_blocks_every_call_witness :
  step (CallOnClass "VimbaSystem" "GetCameras" [PyNone; PyNone]) Vimba.world0
    = (Raised TypeError_arguments, Vimba.world0).
Proof.
  apply (unconvertible_parameter_blocks_every_call Vimba.api Vimba.world0
           "GetCameras" Vimba.GetCameras "CameraPtrVector" ByRef);
    [reflexivity | reflexivity | by left | discriminate].
Defined.

(** X9. A bound function whose SDK declaration returns a type that only
    the generic caster converts (a class or enum, or a container, since
    [stl.h] is not included) other than [VimbaSystem] never hands a value
    back: when its arguments are accepted the SDK function runs, its effect
    on the SDK stays, and the caller gets [TypeError] for the result. *)
Theorem unconvertible_result_is_never_returned (V : VimbaSDK) (w : world V)
    (a : string) (f : cpp_function (Env V) (Exn V)) (ty : string)
    (args : list py_obj) :
  imported w → bound_function (py_module w) a = Some f →
  fn_ret f = TUser ty → ty ≠ VimbaSystem →
  (∀ o, (step (CallOnClass "VimbaSystem" a args) w).1 ≠ Returned o) ∧
  (∀ cargs v,
     load_args w (arg_types f) args = Some cargs →
     (fn_body f cargs (sdk w)).1 = Return v →
     step (CallOnClass "VimbaSystem" a args) w
       = (Raised TypeError_return, with_sdk (fn_body f cargs (sdk w)).2 w)).
Proof.
  intros Hm Hf Hret Hty. pose proof (imported_module _ Hm) as Em.
  rewrite Em in Hf.
  assert (registered_types_cpp (py_module w) !! ty = None) as Hnone.
  { rewrite Em, cmanta_registry. by case_bool_decide. }
  rewrite step_call_on_class, bool_decide_eq_true_2 by done.
  rewrite (call_attr_bound _ _ _ _ Hf). split.
  - intros o. by apply (forward_unconvertible_result f ty).
  - intros cargs v Hload Hbody. unfold forward. rewrite Hload. cbn zeta.
    rewrite Hbody, Hret. destruct v as [|z|ty' addr]; try done.
    cbn [cast_out]. unfold cast_user; cbn [py_module with_sdk].
    by rewrite Hnone.
Qed.

Lemma unconvertible_result_is_never_returned_witness :
  step (CallOnClass "VimbaSystem" "GetCameras" [PyInst 1]) Coded.world1
    = (Raised TypeError_return,
       with_sdk (V := Coded.api) {| Coded.calls := 1 |} Coded.world1).
Proof.
  refine (proj2 (unconvertible_result_is_never_returned Coded.api Coded.world1
                   "GetCameras" Coded.GetCameras "VmbErrorType" [PyInst 1]
                   _ _ _ _)
                [CUser VimbaSystem Coded.instance_addr]
                (CUser "VmbErrorType" 0) _ _);
    [reflexivity | reflexivity | reflexivity | discriminate
     | reflexivity | reflexivity].
Defined.

(** ** The bound operations against the declarations of the Vimba API *)

(** With [static VimbaSystem& GetInstance()] on a class that cannot be
    copied, and [VmbErrorType GetCameras(CameraPtrVector&)], no operation
    ever creates an instance: every world reached after the import is the
    imported world, up to the state of the SDK. *)
Lemma vimba_run (e : Vimba.env) (ops : list op) :
  run ops (loaded (V := Vimba.api) e)
    = loaded (V := Vimba.api) (sdk (run ops (loaded (V := Vimba.api) e))).
Proof.
  apply (run_no_wrap (V := Vimba.api)); [right | left]; done.
Qed.

Lemma vimba_GetInstance_call (e : Vimba.env) (args : list py_obj) :
  step (CallOnClass "VimbaSystem" "GetInstance" args) (loaded (V := Vimba.api) e)
    = (Raised (match args with
               | [] => RuntimeError_noncopyable
               | _ => TypeError_arguments
               end),
       loaded (V := Vimba.api) e).
Proof. by destruct args. Qed.

Lemma vimba_GetCameras_call (e : Vimba.env) (args : list py_obj) :
  step (CallOnClass "VimbaSystem" "GetCameras" args) (loaded (V := Vimba.api) e)
    = (Raised TypeError_arguments, loaded (V := Vimba.api) e).
Proof.
  rewrite step_call_on_class by apply imported_loaded.
  rewrite bool_decide_eq_true_2 by done.
  rewrite (call_attr_bound (V := Vimba.api) "GetCameras" Vimba.GetCameras)
    by reflexivity.
  unfold forward.
  rewrite (load_args_unconvertible (V := Vimba.api) _
             (TUser "CameraPtrVector", ByRef)); [done|by right; left|].
  intros o. by apply load_unregistered.
Qed.

(** C1. The well-formed call [VimbaSystem.GetInstance()] does not return
    what the SDK returns.  In every world reached after the import, the
    SDK's [GetInstance] returns the singleton, and the bound call, run on
    the same (empty) argument list, raises [RuntimeError], because the
    default return value policy copies what a function returns by reference
    and the singleton cannot be copied.  [GetCameras] does not reach the
    SDK for any argument list. *)
Theorem bound_GetInstance_does_not_return_the_sdk_result (e : Vimba.env)
    (ops : list op) :
  let w := run ops (loaded (V := Vimba.api) e) in
  fn_body Vimba.GetInstance [] (sdk w)
    = (Return (CUser VimbaSystem Vimba.instance_addr), sdk w) ∧
  step (CallOnClass "VimbaSystem" "GetInstance" []) w
    = (Raised RuntimeError_noncopyable, w) ∧
  (∀ args, step (CallOnClass "VimbaSystem" "GetCameras" args) w
             = (Raised TypeError_arguments, w)).
Proof.
  cbv zeta. rewrite vimba_run.
  set (e' := sdk (run ops (loaded (V := Vimba.api) e))). split_and!.
  - reflexivity.
  - apply (vimba_GetInstance_call e' []).
  - apply vimba_GetCameras_call.
Qed.

(** C3. A bound call raises although the SDK raises nothing.  Neither SDK
    function ever throws, yet in every world reached after the import every
    call of a bound function on the class ends in an error, and none of
    these errors is the SDK's. *)
Theorem bound_calls_raise_where_the_sdk_does_not (e : Vimba.env)
    (ops : list op) :
  let w := run ops (loaded (V := Vimba.api) e) in
  (∀ cargs env x, (fn_body Vimba.GetInstance cargs env).1 ≠ Throw x) ∧
  (∀ cargs env x, (fn_body Vimba.GetCameras cargs env).1 ≠ Throw x) ∧
  (step (CallOnClass "VimbaSystem" "GetInstance" []) w).1
    = Raised RuntimeError_noncopyable ∧
  (∀ a args,
     is_Some (bound_function (py_module w) a) →
     ∃ err, (step (CallOnClass "VimbaSystem" a args) w).1 = Raised err ∧
            ∀ x, err ≠ SdkError x).
Proof.
  cbv zeta. rewrite vimba_run.
  set (e' := sdk (run ops (loaded (V := Vimba.api) e))). split_and!.
  - done.
  - done.
  - by rewrite (vimba_GetInstance_call e' []).
  - intros a args. cbn [loaded py_module]. rewrite bound_function_cmanta.
    repeat case_bool_decide; subst.
    + intros _. rewrite vimba_GetInstance_call. eexists. split; [done|].
      by destruct args.
    + intros _. rewrite vimba_GetCameras_call. by eexists.
    + by intros [? [=]].
Qed.

(** C6. No call of the bound [GetInstance] returns the system instance.  In
    every world reached after the import no instance is alive, no
    operation hands the caller one, and every call of [GetInstance] on
    the class ends in an error, so no two calls return the same object. *)
Theorem bound_GetInstance_hands_out_no_instance (e : Vimba.env)
    (ops : list op) :
  let w := run ops (loaded (V := Vimba.api) e) in
  instances w = [] ∧
  (∀ o id, (step o w).1 ≠ Returned (PyInst id)) ∧
  (∀ args, ∃ err,
     (step (CallOnClass "VimbaSystem" "GetInstance" args) w).1 = Raised err).
Proof.
  cbv zeta. rewrite vimba_run.
  set (e' := sdk (run ops (loaded (V := Vimba.api) e))). split_and!.
  - done.
  - intros o.
    apply (step_no_wrap (V := Vimba.api) o (loaded e'));
      [apply imported_loaded | done | by right | by left].
  - intros args. rewrite vimba_GetInstance_call. by eexists.
Qed.
